(** * Node_msg: signup and login routes (routes/users.js)

    A shallow embedding of the credential flow of [routes/users.js]:
    the verify callback handed to [LocalStrategy], the session
    (de)serialisation rules and the two [POST /signup] handlers, together
    with the collaborators they call ([node:crypto]'s
    [timingSafeEqual], the Prisma client, express-validator). *)

From Stdlib Require Import ZArith Lia.
From Stdlib.Strings Require Import Byte Ascii.
From stdpp Require Import base decidable option list strings gmap.

Open Scope string_scope.

(** A [Buffer] is a sequence of bytes. *)
Abbreviation Buffer := (list byte).

#[global] Instance byte_eq_dec : EqDecision byte := Byte.byte_eq_dec.

(** ** JavaScript control effects *)
Module Js.

(** Values that the code throws. *)
Inductive Exn : Type :=
| RangeError (code : string)
| TypeError (code : string)
| PrismaClientKnownRequestError (code : string)
| PrismaClientInitializationError (code : string)
| PrismaClientValidationError (argument : string)
| Error (message : string).

#[global] Instance Exn_eq_dec : EqDecision Exn.
Proof. solve_decision. Defined.

(** The completion of an expression: a value, or a thrown exception. *)
Inductive Completion (A : Type) : Type :=
| Normal (a : A)
| Throw (e : Exn).
Arguments Normal {A} a.
Arguments Throw {A} e.

#[global] Instance Completion_ret : MRet Completion := @Normal.
#[global] Instance Completion_bind : MBind Completion :=
  fun A B f m => match m with Normal a => f a | Throw e => Throw e end.

(** [try { body } catch (e) { handler }] where both branches return. *)
Definition try_catch {A} (body : Completion A) (handler : Exn -> A) : A :=
  match body with
  | Normal a => a
  | Throw e => handler e
  end.

(** Work deferred with [process.nextTick]: the callback does not run in
    the current turn, it is queued and run by the event loop. *)
Inductive Loop (R : Type) : Type :=
| Called (r : R)
| NextTick (callback : unit -> Loop R).
Arguments Called {R} r.
Arguments NextTick {R} callback.

(** The event loop runs the queued callbacks until none is left. *)
Fixpoint run {R} (l : Loop R) : R :=
  match l with
  | Called r => r
  | NextTick callback => run (callback tt)
  end.

(** Number of turns of the tick queue a computation takes. *)
Fixpoint ticks {R} (l : Loop R) : nat :=
  match l with
  | Called _ => 0
  | NextTick callback => S (ticks (callback tt))
  end.

End Js.
Import Js.

(** ** The parsed request *)
Module Express.

(** A field of a parsed request, as the parsers of [app.js] give it for a
    URL-encoded form, a query string, a cookie or a header: a string, or
    the strings of a field that occurs several times ([age=1&age=2]).
    Nested values, which only a JSON body or a bracketed query string can
    hold, are not part of this model. *)
Inductive Value : Type :=
| Str (s : string)
| Arr (elements : list string).

#[global] Instance Value_eq_dec : EqDecision Value.
Proof. solve_decision. Defined.

(** The five places of a request where express-validator's [check]
    looks a field up; an absent field is [undefined]. *)
Record Request : Type := mkRequest {
  body : gmap string Value;
  cookies : gmap string Value;
  headers : gmap string Value;
  params : gmap string Value;
  query : gmap string Value;
}.


End Express.
Import Express.

(** ** node:crypto *)
Module Crypto.


(** [crypto.timingSafeEqual(a, b)]: throws a [RangeError] with code
    [ERR_CRYPTO_TIMING_SAFE_EQUAL_LENGTH] when the byte lengths differ,
    otherwise tells whether the two buffers hold the same bytes. *)
Definition timingSafeEqual (a b : Buffer) : Completion bool :=
  if decide (length a = length b)
  then Normal (bool_decide (a = b))
  else Throw (RangeError "ERR_CRYPTO_TIMING_SAFE_EQUAL_LENGTH").

End Crypto.

(** ** The Prisma client and the [user] table *)
Module Prisma.

(** A JavaScript number as [+age] produces it. *)
Inductive JsNumber : Type :=
| NaN
| Infinity (negative : bool)
| Num (z : Z).

#[global] Instance JsNumber_eq_dec : EqDecision JsNumber.
Proof. solve_decision. Defined.

(** Modelled from the spec: the Prisma schema ([model User]) is not among
    the sources.  Section 3 of the specification gives the columns ([id]
    assigned at creation, [name] unique, the password digest, the salt,
    optional [email] and [age]); the column names are those the routes
    use. *)
Record User : Type := mkUser {
  id : Z;
  name : string;
  password : Buffer;
  salt : Buffer;
  email : option string;
  age : option JsNumber;
}.

#[global] Instance User_eq_dec : EqDecision User.
Proof. solve_decision. Defined.

(** The [data] object of [prisma.user.create]. *)
Record UserCreateInput : Type := mkInput {
  data_name : string;
  data_password : Buffer;
  data_salt : Buffer;
  data_email : option string;
  data_age : JsNumber;
}.

(** The client: the rows of the table, the next identifier the database
    hands out, and the fault (if any) every query currently runs into,
    such as an unreachable database. *)
Record Client : Type := mkClient {
  rows : list User;
  nextId : Z;
  outage : option Exn;
}.

Definition hasName (username : string) (u : User) : bool :=
  bool_decide (name u = username).

(** [prisma.user.findUnique({where: {name: username}})]: the row, or
    [null]. *)
Definition findUnique (c : Client) (username : string)
  : Completion (option User) :=
  match outage c with
  | Some e => Throw e
  | None => Normal (List.find (hasName username) (rows c))
  end.

(** The client sends its arguments to the database engine as JSON, where
    [NaN] and the infinities are written [null]: the column, which is
    optional, is then left empty. *)
Definition jsonNumber (n : JsNumber) : option JsNumber :=
  match n with
  | Num z => Some (Num z)
  | NaN | Infinity _ => None
  end.

Definition newRow (c : Client) (d : UserCreateInput) : User :=
  {| id := nextId c;
     name := data_name d;
     password := data_password d;
     salt := data_salt d;
     email := data_email d;
     age := jsonNumber (data_age d) |}.

(** [prisma.user.create({data})]: inserts a row; a second row with a
    [name] already present violates the unique constraint (P2002). *)
Definition create (c : Client) (d : UserCreateInput)
  : Completion User * Client :=
  match outage c with
  | Some e => (Throw e, c)
  | None =>
      if existsb (hasName (data_name d)) (rows c)
      then (Throw (PrismaClientKnownRequestError "P2002"), c)
      else (Normal (newRow c d),
            {| rows := rows c ++ [newRow c d];
               nextId := nextId c + 1;
               outage := None |})
  end.

(** The [data] object as a route builds it out of [req.body]: [name] and
    [email] are whatever the form held there. *)
Record UserCreateArgs : Type := mkArgs {
  args_name : option Value;
  args_password : Buffer;
  args_salt : Buffer;
  args_email : option Value;
  args_age : JsNumber;
}.

(** Modelled from the spec: the Prisma schema is not among the sources.
    The client checks the [data] object against the schema before it
    sends anything to the database: [name] is a string and is required,
    [email] is a string when it is given (section 3: [name] is the
    credential identifier, [email] an optional profile field). *)
Definition checkArgs (a : UserCreateArgs) : Completion UserCreateInput :=
  match args_name a with
  | Some (Str name) =>
      match args_email a with
      | None =>
          Normal {| data_name := name;
                    data_password := args_password a;
                    data_salt := args_salt a;
                    data_email := None;
                    data_age := args_age a |}
      | Some (Str email) =>
          Normal {| data_name := name;
                    data_password := args_password a;
                    data_salt := args_salt a;
                    data_email := Some email;
                    data_age := args_age a |}
      | Some (Arr _) => Throw (PrismaClientValidationError "email")
      end
  | _ => Throw (PrismaClientValidationError "name")
  end.

(** [prisma.user.create({data})] on the object of a route. *)
Definition user_create (c : Client) (a : UserCreateArgs)
  : Completion User * Client :=
  match checkArgs a with
  | Normal d => create c d
  | Throw e => (Throw e, c)
  end.

(** The schema's constraint on the table: names are unique. *)
Definition uniqueNames (c : Client) : Prop :=
  NoDup (List.map name (rows c)).

End Prisma.
Import Prisma.

(** ** validator.js and express-validator *)
Module Validator.

(** express-validator turns what it validates into a string before a
    standard validator sees it; [undefined] becomes the empty string. *)
Definition toString (value : option string) : string :=
  match value with
  | Some s => s
  | None => ""
  end.

(** validator.js [isEmpty]: the string has length 0. *)
Definition isEmpty (str : string) : bool :=
  match str with
  | EmptyString => true
  | String _ _ => false
  end.

Definition isDigit (c : ascii) : bool :=
  (48 <=? nat_of_ascii c)%nat && (nat_of_ascii c <=? 57)%nat.

Definition isSign (c : ascii) : bool :=
  bool_decide (c = "+"%char) || bool_decide (c = "-"%char).

(** [[0-9]+] anchored at both ends. *)
Definition digits (str : string) : bool :=
  negb (isEmpty str) && forallb isDigit (String.list_ascii_of_string str).

(** validator.js [isInt] without options: [/^[-+]?[0-9]+$/]. *)
Definition isInt (str : string) : bool :=
  match str with
  | EmptyString => false
  | String c rest => if isSign c then digits rest else digits str
  end.

(** [.notEmpty()] is the negation of [isEmpty]. *)
Definition notEmpty (str : string) : bool := negb (isEmpty str).

(** One entry of [validationResult(req).array()]. *)
Record FieldError : Type := mkFieldError {
  value : option string;
  msg : string;
  path : string;
  location : string;
}.

#[global] Instance FieldError_eq_dec : EqDecision FieldError.
Proof. solve_decision. Defined.

(** [String.prototype.toLowerCase] on the letters A to Z, which is all a
    field name of these routes could hold. *)
Definition lowerChar (c : ascii) : ascii :=
  if (65 <=? nat_of_ascii c)%nat && (nat_of_ascii c <=? 90)%nat
  then ascii_of_nat (nat_of_ascii c + 32)
  else c.

Fixpoint toLowerCase (str : string) : string :=
  match str with
  | EmptyString => EmptyString
  | String c rest => String (lowerChar c) (toLowerCase rest)
  end.

(** A field as found in one location of the request. *)
Record FieldInstance : Type := mkInstance {
  instance_location : string;
  instance_path : string;
  instance_value : option Value;
}.

(** [check] looks the field up in the body, the cookies, the headers
    (under its lower-case name), the route parameters and the query, in
    this order. *)
Definition selectFields (req : Request) (field : string)
  : list FieldInstance :=
  [ {| instance_location := "body"; instance_path := field;
       instance_value := body req !! field |};
    {| instance_location := "cookies"; instance_path := field;
       instance_value := cookies req !! field |};
    {| instance_location := "headers";
       instance_path := toLowerCase field;
       instance_value := headers req !! toLowerCase field |};
    {| instance_location := "params"; instance_path := field;
       instance_value := params req !! field |};
    {| instance_location := "query"; instance_path := field;
       instance_value := query req !! field |} ].

Definition hasValue (i : FieldInstance) : bool :=
  match instance_value i with
  | Some _ => true
  | None => false
  end.

(** The instances that are validated: those that hold a value, or the
    first one, for the error report, when none does. *)
Definition getData (instances : list FieldInstance) : list FieldInstance :=
  match List.filter hasValue instances with
  | [] => firstn 1 instances
  | withValue => withValue
  end.

(** What a standard validator is run on: every element of a repeated
    field, the value itself otherwise. *)
Definition values (v : option Value) : list (option string) :=
  match v with
  | None => [None]
  | Some (Str s) => [Some s]
  | Some (Arr elements) => List.map Some elements
  end.

(** One standard validator on one instance: an error for each element
    the validator refuses. *)
Definition runValidator (message : string) (validator : string -> bool)
    (i : FieldInstance) : list FieldError :=
  flat_map
    (fun value =>
       if validator (toString value)
       then []
       else [ {| value := value; msg := message;
                 path := instance_path i;
                 location := instance_location i |} ])
    (values (instance_value i)).

(** [check(field, message)] followed by one standard validator. *)
Definition check (field message : string) (validator : string -> bool)
    (req : Request) : list FieldError :=
  flat_map (runValidator message validator)
           (getData (selectFields req field)).


(** The request with every string of a field, in every location, sent
    through [f]. *)
Definition mapValue (f : string -> string) (v : Value) : Value :=
  match v with
  | Str s => Str (f s)
  | Arr elements => Arr (List.map f elements)
  end.

Definition mapField (f : string -> string) (field : string)
    (req : Request) : Request :=
  {| body := alter (mapValue f) field (body req);
     cookies := alter (mapValue f) field (cookies req);
     headers := alter (mapValue f) (toLowerCase field) (headers req);
     params := alter (mapValue f) field (params req);
     query := alter (mapValue f) field (query req) |}.

(** The field is in none of the five locations. *)
Definition absent (req : Request) (field : string) : Prop :=
  body req !! field = None
  /\ cookies req !! field = None
  /\ headers req !! toLowerCase field = None
  /\ params req !! field = None
  /\ query req !! field = None.

End Validator.

(** ** Unary plus *)
Module Number.

Definition digitValue (c : ascii) : Z := Z.of_nat (nat_of_ascii c) - 48.

(** The mathematical value of a run of decimal digits. *)
Definition decimal (str : string) : Z :=
  fold_left (fun acc c => (10 * acc + digitValue c)%Z)
            (String.list_ascii_of_string str) 0%Z.

(** Rounding of an integer to the nearest double (ties to even); the
    integers below [2^53] in magnitude are doubles themselves. *)
Definition roundDouble (n : Z) : JsNumber :=
  let a := Z.abs n in
  if (a <? 2 ^ 53)%Z then Num n
  else
    let e := (Z.log2 a - 52)%Z in
    let q := (a / 2 ^ e)%Z in
    let r := (a mod 2 ^ e)%Z in
    let half := (2 ^ (e - 1))%Z in
    let q' := if (half <? r)%Z || ((r =? half)%Z && Z.odd q)
              then (q + 1)%Z else q in
    let v := (q' * 2 ^ e)%Z in
    if (2 ^ 1024 <=? v)%Z then Infinity (n <? 0)%Z
    else Num (Z.sgn n * v).

(** [+str] for the strings [isInt] accepts, the only ones the signup
    handler applies it to: an optional sign and decimal digits.  Any
    other string is outside this model and is given [NaN]. *)
Definition unaryPlus (str : string) : JsNumber :=
  if Validator.isInt str then
    match str with
    | String "-" rest => roundDouble (- decimal rest)%Z
    | String "+" rest => roundDouble (decimal rest)
    | _ => roundDouble (decimal str)
    end
  else NaN.

(** [+value] for what a route reads in [req.body]: [undefined] is [NaN];
    an array is first joined with commas, so that the empty array is [0],
    an array of one string is that string and a longer one, the commas
    being no part of a number, is [NaN]. *)
Definition toNumber (value : option Value) : JsNumber :=
  match value with
  | None => NaN
  | Some (Str str) => unaryPlus str
  | Some (Arr []) => Num 0
  | Some (Arr [str]) => unaryPlus str
  | Some (Arr (_ :: _ :: _)) => NaN
  end.

End Number.

(** ** routes/users.js *)
Module Users.

(** The third argument of the verify callback's [cb]. *)
Record Info : Type := mkInfo { message : string }.

#[global] Instance Info_eq_dec : EqDecision Info.
Proof. solve_decision. Defined.

(** The second argument of [cb]: left out, [false], or the user. *)
Inductive UserArg : Type :=
| Undefined
| JsFalse
| Found (user : User).

#[global] Instance UserArg_eq_dec : EqDecision UserArg.
Proof. solve_decision. Defined.

(** One call [cb(err, user, info)]. *)
Record Verified : Type := cb {
  cb_err : option Exn;
  cb_user : UserArg;
  cb_info : option Info;
}.

#[global] Instance Verified_eq_dec : EqDecision Verified.
Proof. solve_decision. Defined.

(** What is kept in the session: [{id: user.id, name: user.name}]. *)
Record Principal : Type := mkPrincipal {
  principal_id : Z;
  principal_name : string;
}.

#[global] Instance Principal_eq_dec : EqDecision Principal.
Proof. solve_decision. Defined.

(** [passport.serializeUser]: [done(null, {id, name})] on the next
    tick. *)
Definition serializeUser {R} (user : User)
    (done : option Exn -> Principal -> Loop R) : Loop R :=
  NextTick (fun _ =>
    done None {| principal_id := id user; principal_name := name user |}).

(** [passport.deserializeUser]: [done(null, user)] on the next tick,
    whatever the session holds. *)
Definition deserializeUser {A R} (user : A)
    (done : option Exn -> A -> Loop R) : Loop R :=
  NextTick (fun _ => done None user).

(** The data handed to the [users/signup] view. *)
Record SignupView : Type := mkSignupView {
  title : string;
  view_name : option Value;
  view_email : option Value;
  view_age : option Value;
  messages : list Validator.FieldError;
}.

#[global] Instance SignupView_eq_dec : EqDecision SignupView.
Proof. solve_decision. Defined.

(** What a handler answers. *)
Inductive Response : Type :=
| Render (view : string) (data : SignupView)
| Redirect (url : string).

#[global] Instance Response_eq_dec : EqDecision Response.
Proof. solve_decision. Defined.

Section Routes.

(** [../util/scrypt] is not among the sources: [calcHash] and
    [generateSalt] are taken as they are called, the first one as a
    function that may throw, the second one as a draw from a source
    of randomness [Rng].  [calcHashOther] is what [calcHash] does when
    its first argument is not a string, as the signup route may call
    it. *)
Context {Rng : Type}.
Variable calcHash : string -> Buffer -> Completion Buffer.
Variable calcHashOther : option Value -> Buffer -> Completion Buffer.
Variable generateSalt : Rng -> Buffer * Rng.

(** validator.js [isEmail], with its default options. *)
Variable isEmail : string -> bool.

(** *** The verify callback of [LocalStrategy] *)
Definition verify (prisma : Client) (username password : string)
  : Verified :=
  try_catch
    (user ← findUnique prisma username;
     match user with
     | None =>
         mret (cb None JsFalse
                 (Some {| message := "ユーザ名かパスワードが違います" |}))
     | Some user =>
         hashedPassword ← calcHash password (salt user);
         same ← Crypto.timingSafeEqual (Prisma.password user)
                                       hashedPassword;
         if negb same
         then mret (cb None JsFalse
                      (Some {| message := "ユーザ名かパスワードが違います" |}))
         else mret (cb None (Found user) None)
     end)
    (fun e => cb (Some e) Undefined None).

(** A step of the [try] block throws [e]: the lookup, the hashing or
    the comparison. *)
Definition faults (c : Client) (username password : string) (e : Exn)
  : Prop :=
  findUnique c username = Throw e
  \/ exists u, findUnique c username = Normal (Some u)
       /\ (calcHash password (salt u) = Throw e
           \/ exists h, calcHash password (salt u) = Normal h
                /\ Crypto.timingSafeEqual (Prisma.password u) h = Throw e).

(** *** POST /signup *)

(** What a request handler works on: the Prisma client and the source
    of randomness. *)
Record World : Type := mkWorld {
  prisma : Client;
  entropy : Rng;
}.

(** An [async] handler body: it changes the world and either returns
    or throws (a rejected promise, no response sent). *)
Definition Async (A : Type) : Type := World -> Completion A * World.

Definition async_ret {A} (a : A) : Async A := fun w => (Normal a, w).

Definition async_bind {A B} (m : Async A) (k : A -> Async B) : Async B :=
  fun w =>
    match m w with
    | (Normal a, w') => k a w'
    | (Throw e, w') => (Throw e, w')
    end.

Definition lift {A} (c : Completion A) : Async A := fun w => (c, w).

Definition scrypt_generateSalt : Async Buffer := fun w =>
  let '(salt, rng) := generateSalt (entropy w) in
  (Normal salt, {| prisma := prisma w; entropy := rng |}).

(** [scrypt.calcHash(password, salt)] on what [req.body] holds. *)
Definition scrypt_calcHash (password : option Value) (salt : Buffer)
  : Completion Buffer :=
  match password with
  | Some (Str str) => calcHash str salt
  | _ => calcHashOther password salt
  end.

Definition prisma_user_create (a : UserCreateArgs) : Async User :=
  fun w =>
    let '(r, c) := user_create (prisma w) a in
    (r, {| prisma := c; entropy := entropy w |}).

(** The validation chain of the route and [validationResult(req)]. *)
Definition validationResult (req : Request) : list Validator.FieldError :=
  Validator.check "name" "NAME は必ず入力してください。"
                  Validator.notEmpty req
  ++ Validator.check "password" "PASSWORD は必ず入力してください。"
                     Validator.notEmpty req
  ++ Validator.check "email" "EMAIL はメールアドレスを入力してください。"
                     isEmail req
  ++ Validator.check "age" "AGE は整数で入力してください。"
                     Validator.isInt req.

(** [result.isEmpty()] *)
Definition result_isEmpty (result : list Validator.FieldError) : bool :=
  match result with
  | [] => true
  | _ :: _ => false
  end.

Notation "'await' x := m 'in' k" := (async_bind m (fun x => k))
  (at level 10, x name, m at level 100, k at level 200).

(** The handler.  It validates the request and reads the four fields in
    [req.body]. *)
Definition signup (req : Request) : Async Response :=
  let result := validationResult req in
  if negb (result_isEmpty result) then
    let messages := result in
    async_ret (Render "users/signup"
                 {| title := "Users/Signup";
                    view_name := body req !! "name";
                    view_email := body req !! "email";
                    view_age := body req !! "age";
                    messages := messages |})
  else
    let name := body req !! "name" in
    let password := body req !! "password" in
    let email := body req !! "email" in
    let age := body req !! "age" in
    await salt := scrypt_generateSalt in
    await hashedPassword := lift (scrypt_calcHash password salt) in
    await created :=
      prisma_user_create
        {| args_name := name;
           args_password := hashedPassword;
           args_salt := salt;
           args_email := email;
           args_age := Number.toNumber age |} in
    async_ret (Redirect "/users/login").

End Routes.


End Users.

(** ** routes/users.js, the ES-module routes at the head of the file

    The file opens with an earlier version of the router, written with
    [import] and with [../util/auth.js] in place of [../util/scrypt].
    Its signup route checks [name] and [pass] only and writes the digest
    to a [pass] column. *)
Module UsersEsm.

(** The data handed to the [users/signup] view. *)
Record SignupView : Type := mkSignupView {
  title : string;
  view_name : option Value;
  errors : list Validator.FieldError;
}.

#[global] Instance SignupView_eq_dec : EqDecision SignupView.
Proof. solve_decision. Defined.

Inductive Response : Type :=
| Render (view : string) (data : SignupView)
| Redirect (url : string).

#[global] Instance Response_eq_dec : EqDecision Response.
Proof. solve_decision. Defined.

(** The [data] object this route gives [prisma.user.create]. *)
Record UserCreateInput : Type := mkInput {
  data_name : option Value;
  data_pass : Buffer;
  data_salt : Buffer;
}.

Section Routes.

(** [../util/auth.js] and the schema this version wrote to are not among
    the sources: the hashing functions and [prisma.user.create] are taken
    as they are called, [calcHash] on whatever [req.body.pass] holds,
    [prisma.user.create] on a store [Db] it may change and with a
    created row [Row] that the handler drops. *)
Context {Rng Db Row : Type}.
Variable calcHash : option Value -> Buffer -> Completion Buffer.
Variable generateSalt : Rng -> Buffer * Rng.
Variable prisma_user_create : Db -> UserCreateInput -> Completion Row * Db.

Record World : Type := mkWorld {
  prisma : Db;
  entropy : Rng;
}.

(** The validation chain of the route and [validationResult(req)]. *)
Definition validationResult (req : Request) : list Validator.FieldError :=
  Validator.check "name" "名前の入力は必須です" Validator.notEmpty req
  ++ Validator.check "pass" "パスワードの入力は必須です"
                     Validator.notEmpty req.

(** The handler; it returns the response (or throws) and the world it
    leaves. *)
Definition signup (req : Request) (w : World)
  : Completion Response * World :=
  let result := validationResult req in
  if negb (bool_decide (result = [])) then
    let errors := result in
    (Normal (Render "users/signup"
               {| title := "ユーザ新規登録";
                  view_name := body req !! "name";
                  errors := errors |}), w)
  else
    let name := body req !! "name" in
    let pass := body req !! "pass" in
    let '(salt, rng) := generateSalt (entropy w) in
    match calcHash pass salt with
    | Throw e => (Throw e, {| prisma := prisma w; entropy := rng |})
    | Normal hashedPassword =>
        let '(created, db) :=
          prisma_user_create (prisma w)
            {| data_name := name;
               data_pass := hashedPassword;
               data_salt := salt |} in
        match created with
        | Throw e => (Throw e, {| prisma := db; entropy := rng |})
        | Normal _ =>
            (Normal (Redirect "/users/login"),
             {| prisma := db; entropy := rng |})
        end
    end.

End Routes.

End UsersEsm.
Import Users.

(** ** Stand-ins to run the routes on concrete requests

    [../util/scrypt] and validator.js are not part of the sources; the
    examples below run the routes with these simple functions in their
    place. *)
Module Demo.

Definition bytes (s : string) : Buffer :=
  List.map byte_of_ascii (String.list_ascii_of_string s).

(** A digest made of the salt followed by the bytes of the password. *)
Definition calcHash (password : string) (salt : Buffer)
  : Completion Buffer :=
  Normal (salt ++ bytes password)%list.


(** [calcHash] on something that is not a string throws. *)
Definition calcHashOther (password : option Value) (salt : Buffer)
  : Completion Buffer :=
  Throw (TypeError "ERR_INVALID_ARG_TYPE").


(** Salts drawn from a counter. *)
Definition generateSalt (n : nat) : Buffer * nat :=
  ([byte_of_ascii (ascii_of_nat n); x5a], S n).

(** An address is a string with an at sign in it. *)
Definition isEmail (str : string) : bool :=
  existsb (fun c => bool_decide (c = "@"%char))
          (String.list_ascii_of_string str).

Definition alice : User :=
  {| id := 1;
     name := "alice";
     password := ([x01; x5a] ++ bytes "secret")%list;
     salt := [x01; x5a];
     email := Some "alice@example.com";
     age := Some (Num 20) |}.

(** A row whose stored digest is shorter than the digests of
    [calcHash]. *)
Definition bob : User :=
  {| id := 2;
     name := "bob";
     password := [x00; x01; x02];
     salt := [x02; x5a];
     email := None;
     age := None |}.

Definition db : Client :=
  {| rows := [alice; bob]; nextId := 3; outage := None |}.

(** The table without [bob]. *)
Definition db_without_bob : Client :=
  {| rows := [alice]; nextId := 3; outage := None |}.

Definition unreachable : Client :=
  {| rows := [alice; bob]; nextId := 3;
     outage := Some (PrismaClientInitializationError "P1001") |}.

Definition world : World :=
  {| prisma := db; entropy := 7%nat |}.

(** A posted form: a request with fields in its body only. *)
Definition form (fields : gmap string Value) : Request :=
  {| body := fields; cookies := ∅; headers := ∅; params := ∅;
     query := ∅ |}.

Definition carol_fields : gmap string Value :=
  <["name" := Str "carol"]> (<["password" := Str "hunter2"]>
    (<["email" := Str "carol@example.com"]> (<["age" := Str "31"]> ∅))).

(** A complete signup form. *)
Definition carol_form : Request := form carol_fields.


(** A form with the name and the password only. *)
Definition short_form : Request :=
  form (<["name" := Str "dave"]> (<["password" := Str "secret"]> ∅)).

(** A form without a name. *)
Definition nameless_form : Request :=
  form (<["password" := Str "secret"]>
          (<["email" := Str "eve@example.com"]> (<["age" := Str "40"]> ∅))).

(** A form whose password field is empty. *)
Definition blank_password_form : Request :=
  form (<["password" := Str ""]> carol_fields).

(** A complete form that also carries fields the route does not name. *)
Definition stuffed_form : Request :=
  form (<["id" := Str "1"]> (<["salt" := Str "00"]> carol_fields)).

(** The form of [carol] without its age, posted to [/signup?age=31]. *)
Definition query_age_request : Request :=
  {| body := delete "age" carol_fields; cookies := ∅; headers := ∅;
     params := ∅; query := <["age" := Str "31"]> ∅ |}.

(** The form of [carol] with two ages: [age=1&age=2]. *)
Definition repeated_age_form : Request :=
  form (<["age" := Arr ["1"; "2"]]> carol_fields).




End Demo.
(** ** Properties of the collaborators *)

Example isInt_accepts : List.map Validator.isInt ["0"; "31"; "-7"; "+007"]
                        = [true; true; true; true].
Proof. reflexivity. Qed.

Example isInt_rejects : List.map Validator.isInt [""; "-"; "12a"; "1.5"; " 3"]
                        = [false; false; false; false; false].
Proof. reflexivity. Qed.

Example unaryPlus_values :
  List.map Number.unaryPlus ["31"; "-0042"; "+7"; "9007199254740993"]
  = [Num 31; Num (-42); Num 7; Num 9007199254740992].
Proof. vm_compute. reflexivity. Qed.

Lemma timingSafeEqual_same (a : Buffer) :
  Crypto.timingSafeEqual a a = Normal true.
Proof.
  unfold Crypto.timingSafeEqual.
  destruct (decide (length a = length a)) as [_|Hne]; [|congruence].
  by rewrite bool_decide_eq_true_2.
Qed.

Lemma timingSafeEqual_differ (a b : Buffer) :
  length a = length b -> a <> b ->
  Crypto.timingSafeEqual a b = Normal false.
Proof.
  intros Hlen Hne. unfold Crypto.timingSafeEqual.
  destruct (decide (length a = length b)) as [_|?]; [|congruence].
  by rewrite bool_decide_eq_false_2.
Qed.

Lemma timingSafeEqual_length (a b : Buffer) :
  length a <> length b ->
  Crypto.timingSafeEqual a b
  = Throw (RangeError "ERR_CRYPTO_TIMING_SAFE_EQUAL_LENGTH").
Proof.
  intros Hlen. unfold Crypto.timingSafeEqual.
  destruct (decide (length a = length b)); [congruence|reflexivity].
Qed.

Lemma find_hasName_stored (l : list User) (u : User) :
  NoDup (List.map name l) -> In u l ->
  List.find (hasName (name u)) l = Some u.
Proof.
  induction l as [|v l IH]; intros Hnd Hin; [destruct Hin|].
  simpl in *. apply NoDup_cons in Hnd as [Hv Hnd]. unfold hasName at 1.
  destruct Hin as [->|Hin].
  - by rewrite bool_decide_eq_true_2.
  - rewrite bool_decide_eq_false_2; [by apply IH|].
    intros Heq. apply Hv. rewrite Heq.
    apply list_elem_of_In, in_map, Hin.
Qed.

Lemma find_hasName_absent (l : list User) (username : string) :
  (forall v, In v l -> name v <> username) ->
  List.find (hasName username) l = None.
Proof.
  induction l as [|v l IH]; intros Habs; [reflexivity|].
  simpl. unfold hasName at 1.
  rewrite bool_decide_eq_false_2 by (apply Habs; now left).
  apply IH. intros w Hw. apply Habs. now right.
Qed.

Lemma findUnique_stored (c : Client) (u : User) :
  outage c = None -> uniqueNames c -> In u (rows c) ->
  findUnique c (name u) = Normal (Some u).
Proof.
  intros Hup Huniq Hin. unfold findUnique. rewrite Hup.
  by rewrite find_hasName_stored.
Qed.

Lemma findUnique_absent (c : Client) (username : string) :
  outage c = None -> (forall v, In v (rows c) -> name v <> username) ->
  findUnique c username = Normal None.
Proof.
  intros Hup Habs. unfold findUnique. rewrite Hup.
  by rewrite find_hasName_absent.
Qed.

(** ** The verify callback *)
Section VerifyProperties.

Variable calcHash : string -> Buffer -> Completion Buffer.

(** The three ways the callback ends, by what the steps of the [try]
    block do. *)
Lemma verify_unknown (c : Client) (username password : string) :
  findUnique c username = Normal None ->
  verify calcHash c username password
  = cb None JsFalse (Some {| message := "ユーザ名かパスワードが違います" |}).
Proof. intros Hfind. unfold verify. by rewrite Hfind. Qed.

Lemma verify_compared (c : Client) (username password : string)
    (u : User) (h : Buffer) (same : bool) :
  findUnique c username = Normal (Some u) ->
  calcHash password (salt u) = Normal h ->
  Crypto.timingSafeEqual (Prisma.password u) h = Normal same ->
  verify calcHash c username password
  = if same then cb None (Found u) None
    else cb None JsFalse
           (Some {| message := "ユーザ名かパスワードが違います" |}).
Proof.
  intros Hfind Hhash Hcmp. unfold verify. rewrite Hfind. simpl.
  rewrite Hhash. simpl. rewrite Hcmp. by destruct same.
Qed.

Lemma verify_thrown (c : Client) (username password : string) (e : Exn) :
  faults calcHash c username password e ->
  verify calcHash c username password = cb (Some e) Undefined None.
Proof.
  unfold verify.
  intros [Hfind|(u & Hfind & [Hhash|(h & Hhash & Hcmp)])];
    rewrite Hfind; simpl; try rewrite Hhash; simpl;
    try rewrite Hcmp; reflexivity.
Qed.

(** Conversely, the error argument is only ever set by a thrown
    exception. *)
Lemma verify_error_inv (c : Client) (username password : string) (e : Exn) :
  cb_err (verify calcHash c username password) = Some e ->
  faults calcHash c username password e.
Proof.
  unfold verify, faults.
  destruct (findUnique c username) as [[u|]|e0] eqn:Hfind; simpl.
  - destruct (calcHash password (salt u)) as [h|e1] eqn:Hhash; simpl.
    + destruct (Crypto.timingSafeEqual (Prisma.password u) h)
        as [[|]|e2] eqn:Hcmp; simpl; try discriminate.
      intros [= ->]. right. exists u. split; [done|]. right. by exists h.
    + intros [= ->]. right. exists u. split; [done|]. by left.
  - discriminate.
  - intros [= ->]. by left.
Qed.

(** C1: with the name of a stored record and a password whose digest
    under the record's salt is the stored digest, the verify callback
    calls [cb(null, user)] with that record, and serialising that user
    hands [done] the principal [{id, name}] of the record. *)
Theorem verify_accepts_stored_credentials
    (c : Client) (u : User) (username password : string) :
  outage c = None -> uniqueNames c -> In u (rows c) ->
  username = name u ->
  calcHash password (salt u) = Normal (Prisma.password u) ->
  verify calcHash c username password = cb None (Found u) None
  /\ run (serializeUser u (fun err principal => Called (err, principal)))
     = (None, {| principal_id := id u; principal_name := name u |}).
Proof.
  intros Hup Huniq Hin -> Hhash. split; [|reflexivity].
  rewrite (verify_compared c (name u) password u (Prisma.password u) true);
    auto using findUnique_stored, timingSafeEqual_same.
Qed.

(** C2 (amended): the call made when no record has the submitted name
    and the call made when the record exists, [calcHash] returns a digest
    of the same length as the stored one and the two digests differ (the
    comparison answers [false]) are the same call:
    [cb(null, false, {message})] with the same message. *)
Theorem verify_rejections_identical
    (c1 c2 : Client) (u : User) (username password : string)
    (h : Buffer) :
  outage c1 = None ->
  (forall v, In v (rows c1) -> name v <> username) ->
  outage c2 = None -> uniqueNames c2 -> In u (rows c2) ->
  name u = username ->
  calcHash password (salt u) = Normal h ->
  length (Prisma.password u) = length h ->
  h <> Prisma.password u ->
  verify calcHash c1 username password
  = verify calcHash c2 username password
  /\ cb_err (verify calcHash c2 username password) = None
  /\ cb_user (verify calcHash c2 username password) = JsFalse
  /\ cb_info (verify calcHash c1 username password)
     = cb_info (verify calcHash c2 username password).
Proof.
  intros Hup1 Habs Hup2 Huniq Hin <- Hhash Hlen Hne.
  rewrite (verify_unknown c1) by auto using findUnique_absent.
  rewrite (verify_compared c2 (name u) password u h false);
    auto using findUnique_stored, timingSafeEqual_differ.
Qed.

(** C7: when the lookup, the hashing or the comparison throws [e], the
    callback is called as [cb(e)]: the error comes first, and the call is
    not the rejection [cb(null, false, {message})] of an unknown user or
    a wrong password. *)
Theorem verify_propagates_fault
    (c : Client) (username password : string) (e : Exn) :
  faults calcHash c username password e ->
  verify calcHash c username password = cb (Some e) Undefined None
  /\ verify calcHash c username password
     <> cb None JsFalse
          (Some {| message := "ユーザ名かパスワードが違います" |}).
Proof.
  intros Hf. rewrite (verify_thrown _ _ _ _ Hf). split; [reflexivity|].
  discriminate.
Qed.

(** C10: when the stored digest of the record and the recomputed digest
    differ in length, [timingSafeEqual] throws, the [catch] block calls
    [cb(e)] with that [RangeError], and the attempt does not end in the
    rejection [cb(null, false, {message})]. *)
Theorem verify_length_mismatch_is_error
    (c : Client) (u : User) (password : string) (h : Buffer) :
  outage c = None -> uniqueNames c -> In u (rows c) ->
  calcHash password (salt u) = Normal h ->
  length (Prisma.password u) <> length h ->
  Crypto.timingSafeEqual (Prisma.password u) h
  = Throw (RangeError "ERR_CRYPTO_TIMING_SAFE_EQUAL_LENGTH")
  /\ verify calcHash c (name u) password
     = cb (Some (RangeError "ERR_CRYPTO_TIMING_SAFE_EQUAL_LENGTH"))
          Undefined None
  /\ verify calcHash c (name u) password
     <> cb None JsFalse
          (Some {| message := "ユーザ名かパスワードが違います" |}).
Proof.
  intros Hup Huniq Hin Hhash Hlen.
  pose proof (timingSafeEqual_length _ _ Hlen) as Hcmp.
  split; [exact Hcmp|].
  rewrite (verify_thrown c (name u) password
             (RangeError "ERR_CRYPTO_TIMING_SAFE_EQUAL_LENGTH")).
  - split; [reflexivity|discriminate].
  - right. exists u. split; [by apply findUnique_stored|].
    right. by exists h.
Qed.

End VerifyProperties.

(** ** Session rules *)

(** Both rules answer on the next tick, not in the turn that calls
    them. *)
Lemma session_rules_deferred (u : User) (stored : Principal) :
  ticks (serializeUser u (fun err principal => Called (err, principal))) = 1
  /\ ticks (deserializeUser stored (fun err user => Called (err, user))) = 1.
Proof. split; reflexivity. Qed.

(** C3: restoring what [serializeUser] stored for a user hands [done] a
    principal with the [id] and the [name] of that user, and
    [deserializeUser] hands [done] whatever the session holds, unchanged
    and without an error (it is given no client to look the user up). *)
Theorem session_round_trip :
  (forall u : User,
     run (serializeUser u (fun _ stored =>
            deserializeUser stored (fun err user => Called (err, user))))
     = (None, {| principal_id := id u; principal_name := name u |}))
  /\ (forall (A : Type) (stored : A),
        run (deserializeUser stored (fun err user => Called (err, user)))
        = (None, stored)).
Proof. split; reflexivity. Qed.

(** ** The validation chains *)

Lemma flat_map_nil {A B} (f : A -> list B) (l : list A) :
  flat_map f l = [] <-> forall x, In x l -> f x = [].
Proof.
  induction l as [|a l IH]; simpl.
  - split; [intros _ x []|reflexivity].
  - split.
    + intros H. apply List.app_eq_nil in H as [Ha Hl].
      intros x [<-|Hx]; [exact Ha|]. by apply IH.
    + intros H. rewrite (H a) by now left. simpl.
      apply IH. intros x Hx. apply H. now right.
Qed.

(** A check reports nothing exactly when the validator accepts every
    element of every instance that is validated. *)
Lemma check_passes (field message : string) (validator : string -> bool)
    (req : Request) :
  Validator.check field message validator req = []
  <-> forall i value,
        In i (Validator.getData (Validator.selectFields req field)) ->
        In value (Validator.values (Validator.instance_value i)) ->
        validator (Validator.toString value) = true.
Proof.
  unfold Validator.check, Validator.runValidator.
  rewrite flat_map_nil. split.
  - intros H i value Hi Hvalue. specialize (H i Hi).
    rewrite flat_map_nil in H. specialize (H value Hvalue).
    by destruct (validator (Validator.toString value)).
  - intros H i Hi. apply flat_map_nil. intros value Hvalue.
    by rewrite (H i value Hi Hvalue).
Qed.

(** An instance that holds a value is validated. *)
Lemma getData_with_value (instances : list Validator.FieldInstance)
    (i : Validator.FieldInstance) :
  In i instances -> Validator.hasValue i = true ->
  In i (Validator.getData instances).
Proof.
  intros Hin Hval. unfold Validator.getData.
  assert (In i (List.filter Validator.hasValue instances)) as Hf
    by (apply filter_In; by split).
  by destruct (List.filter Validator.hasValue instances).
Qed.


(** When no instance holds a value the first one is validated. *)
Lemma getData_none (instances : list Validator.FieldInstance) :
  (forall i, In i instances -> Validator.instance_value i = None) ->
  Validator.getData instances = firstn 1 instances.
Proof.
  intros Hnone. unfold Validator.getData.
  destruct (List.filter Validator.hasValue instances) as [|j l] eqn:Hf;
    [reflexivity|].
  assert (In j (List.filter Validator.hasValue instances)) as Hj
    by (rewrite Hf; now left).
  apply filter_In in Hj as [Hin Hval].
  unfold Validator.hasValue in Hval. by rewrite (Hnone j Hin) in Hval.
Qed.

(** A field that is in the body is validated there. *)
Lemma check_body (field message : string) (validator : string -> bool)
    (req : Request) (v : Value) (value : option string) :
  Validator.check field message validator req = [] ->
  body req !! field = Some v ->
  In value (Validator.values (Some v)) ->
  validator (Validator.toString value) = true.
Proof.
  intros Hcheck Hbody Hvalue.
  apply (proj1 (check_passes _ _ _ _) Hcheck
           {| Validator.instance_location := "body";
              Validator.instance_path := field;
              Validator.instance_value := Some v |}); [|exact Hvalue].
  apply getData_with_value; [|reflexivity].
  unfold Validator.selectFields. rewrite Hbody. now left.
Qed.

(** A field that is nowhere in the request is validated as [undefined],
    hence as the empty string, and reported for the body. *)
Lemma check_absent (field message : string) (validator : string -> bool)
    (req : Request) :
  body req !! field = None ->
  cookies req !! field = None ->
  headers req !! Validator.toLowerCase field = None ->
  params req !! field = None ->
  query req !! field = None ->
  Validator.check field message validator req
  = if validator ""
    then []
    else [ {| Validator.value := None; Validator.msg := message;
              Validator.path := field;
              Validator.location := "body" |} ].
Proof.
  intros Hb Hc Hh Hp Hq. unfold Validator.check.
  rewrite getData_none.
  - unfold Validator.selectFields, Validator.runValidator. simpl.
    rewrite Hb. simpl. by destruct (validator "").
  - unfold Validator.selectFields.
    intros i [<-|[<-|[<-|[<-|[<-|[]]]]]]; assumption.
Qed.

(** ** POST /signup *)
Section SignupProperties.

Context {Rng : Type}.
Variable calcHash : string -> Buffer -> Completion Buffer.
Variable calcHashOther : option Value -> Buffer -> Completion Buffer.
Variable generateSalt : Rng -> Buffer * Rng.
Variable isEmail : string -> bool.

Lemma validationResult_passes (req : Request) :
  validationResult isEmail req = []
  <-> Validator.check "name" "NAME は必ず入力してください。"
                      Validator.notEmpty req = []
      /\ Validator.check "password" "PASSWORD は必ず入力してください。"
                         Validator.notEmpty req = []
      /\ Validator.check "email" "EMAIL はメールアドレスを入力してください。"
                         isEmail req = []
      /\ Validator.check "age" "AGE は整数で入力してください。"
                         Validator.isInt req = [].
Proof.
  unfold validationResult. split.
  - intros H.
    apply List.app_eq_nil in H as [Hn H].
    apply List.app_eq_nil in H as [Hp H].
    by apply List.app_eq_nil in H as [He Ha].
  - intros (-> & -> & -> & ->). reflexivity.
Qed.

(** Past the validation, what the body holds of the four fields has
    been checked. *)
Lemma validated_body (req : Request) :
  validationResult isEmail req = [] ->
  (forall name, body req !! "name" = Some (Str name) -> name <> "")
  /\ (forall password,
        body req !! "password" = Some (Str password) -> password <> "")
  /\ (forall email,
        body req !! "email" = Some (Str email) -> isEmail email = true)
  /\ (forall age,
        body req !! "age" = Some (Str age) -> Validator.isInt age = true).
Proof.
  rewrite validationResult_passes. intros (Hn & Hp & He & Ha).
  repeat split.
  - intros name Hname.
    pose proof (check_body _ _ _ _ _ (Some name) Hn Hname) as H.
    simpl in H. specialize (H (or_introl eq_refl)). by destruct name.
  - intros password Hpw.
    pose proof (check_body _ _ _ _ _ (Some password) Hp Hpw) as H.
    simpl in H. specialize (H (or_introl eq_refl)). by destruct password.
  - intros email Hemail.
    apply (check_body _ _ _ _ _ (Some email) He Hemail). now left.
  - intros age Hage.
    apply (check_body _ _ _ _ _ (Some age) Ha Hage). now left.
Qed.

(** The first branch of the handler. *)
Lemma signup_invalid (req : Request) (w : World) :
  validationResult isEmail req <> [] ->
  signup calcHash calcHashOther generateSalt isEmail req w
  = (Normal (Render "users/signup"
               {| title := "Users/Signup";
                  view_name := body req !! "name";
                  view_email := body req !! "email";
                  view_age := body req !! "age";
                  messages := validationResult isEmail req |}), w).
Proof.
  intros Hne. unfold signup.
  destruct (validationResult isEmail req); [congruence|reflexivity].
Qed.

(** The second branch of the handler, step by step. *)
Lemma signup_valid (req : Request) (w : World) :
  validationResult isEmail req = [] ->
  signup calcHash calcHashOther generateSalt isEmail req w
  = let '(salt, rng) := generateSalt (entropy w) in
    match scrypt_calcHash calcHash calcHashOther
            (body req !! "password") salt with
    | Throw e => (Throw e, {| prisma := prisma w; entropy := rng |})
    | Normal hashedPassword =>
        let '(created, c) :=
          user_create (prisma w)
            {| args_name := body req !! "name";
               args_password := hashedPassword;
               args_salt := salt;
               args_email := body req !! "email";
               args_age := Number.toNumber (body req !! "age") |} in
        (match created with
         | Normal _ => Normal (Redirect "/users/login")
         | Throw e => Throw e
         end, {| prisma := c; entropy := rng |})
    end.
Proof.
  intros Hok. unfold signup. rewrite Hok. simpl.
  unfold async_bind, scrypt_generateSalt, lift, prisma_user_create,
    async_ret.
  destruct (generateSalt (entropy w)) as [salt rng]. simpl.
  destruct (scrypt_calcHash _ _ _ _) as [h|e]; [|reflexivity].
  destruct (user_create _ _) as [[u|e] c]; reflexivity.
Qed.


Lemma create_taken (c : Client) (d : UserCreateInput) (v : User) :
  outage c = None -> In v (rows c) -> name v = data_name d ->
  create c d = (Throw (PrismaClientKnownRequestError "P2002"), c).
Proof.
  intros Hup Hin Hv. unfold create. rewrite Hup.
  destruct (existsb _ _) eqn:Hex; [reflexivity|].
  assert (existsb (hasName (data_name d)) (rows c) = true) as Hex'.
  { apply existsb_exists. exists v. split; [done|].
    by apply bool_decide_eq_true_2. }
  congruence.
Qed.

(** [create] never removes or changes a row: it adds one or none. *)
Lemma create_rows (c c' : Client) (d : UserCreateInput)
    (r : Completion User) :
  create c d = (r, c') ->
  match r with
  | Normal u => rows c' = (rows c ++ [u])%list /\ u = newRow c d
  | Throw _ => c' = c
  end.
Proof.
  unfold create. destruct (outage c); [by intros [= <- <-]|].
  destruct (existsb _ _); by intros [= <- <-].
Qed.

(** [create] either adds the new row, on a reachable store without the
    name, or throws and leaves the client as it was. *)
Lemma create_outcome (c : Client) (d : UserCreateInput) :
  (outage c = None
   /\ (forall v, In v (rows c) -> name v <> data_name d)
   /\ create c d
      = (Normal (newRow c d),
         {| rows := rows c ++ [newRow c d];
            nextId := nextId c + 1;
            outage := None |}))
  \/ exists e, create c d = (Throw e, c).
Proof.
  unfold create. destruct (outage c) as [e|] eqn:Hup; [right; by exists e|].
  destruct (existsb _ _) eqn:Hex; [right; by eexists|].
  left. split; [reflexivity|]. split; [|reflexivity].
  intros v Hin Hv.
  assert (existsb (hasName (data_name d)) (rows c) = true) as Hex'.
  { apply existsb_exists. exists v. split; [done|].
    by apply bool_decide_eq_true_2. }
  congruence.
Qed.

(** The handler ends in one of two ways: with the redirect and one more
    row, or without the redirect and with the client as it was. *)
Lemma signup_outcome (req : Request) (w : World) :
  (exists name email salt h,
      body req !! "name" = Some (Str name)
      /\ body req !! "email" = Str <$> email
      /\ validationResult isEmail req = []
      /\ salt = fst (generateSalt (entropy w))
      /\ scrypt_calcHash calcHash calcHashOther
           (body req !! "password") salt = Normal h
      /\ outage (prisma w) = None
      /\ (forall v, In v (rows (prisma w)) -> Prisma.name v <> name)
      /\ fst (signup calcHash calcHashOther generateSalt isEmail req w)
         = Normal (Redirect "/users/login")
      /\ prisma (snd (signup calcHash calcHashOther generateSalt isEmail
                             req w))
         = {| rows := rows (prisma w) ++
                      [ {| id := nextId (prisma w);
                           Prisma.name := name;
                           Prisma.password := h;
                           Prisma.salt := salt;
                           Prisma.email := email;
                           Prisma.age :=
                             jsonNumber
                               (Number.toNumber (body req !! "age")) |} ];
              nextId := nextId (prisma w) + 1;
              outage := None |})
  \/ ((forall url,
         fst (signup calcHash calcHashOther generateSalt isEmail req w)
         <> Normal (Redirect url))
      /\ prisma (snd (signup calcHash calcHashOther generateSalt isEmail
                             req w))
         = prisma w).
Proof.
  destruct (validationResult isEmail req) as [|err errs] eqn:Hres.
  - rewrite (signup_valid req w Hres).
    destruct (generateSalt (entropy w)) as [salt rng] eqn:Hsalt.
    destruct (scrypt_calcHash _ _ _ _) as [h|e] eqn:Hhash;
      [|right; split; [intros url; discriminate|reflexivity]].
    unfold user_create, checkArgs. simpl.
    destruct (body req !! "name") as [[name|names]|] eqn:Hname;
      try (right; split; [intros url; discriminate|reflexivity]).
    destruct (body req !! "email") as [[email|emails]|] eqn:Hemail;
      try (right; split; [intros url; discriminate|reflexivity]).
    + match goal with
      | |- context [create ?c ?d] =>
          destruct (create_outcome c d) as [(Hup & Hfresh & ->)|[e ->]]
      end.
      * left. exists name, (Some email), salt, h. by repeat split.
      * right. split; [intros url; discriminate|reflexivity].
    + match goal with
      | |- context [create ?c ?d] =>
          destruct (create_outcome c d) as [(Hup & Hfresh & ->)|[e ->]]
      end.
      * left. exists name, None, salt, h. by repeat split.
      * right. split; [intros url; discriminate|reflexivity].
  - rewrite signup_invalid by congruence.
    right. split; [intros url; discriminate|reflexivity].
Qed.

(** A valid form whose name is taken: [create] throws, the handler's
    promise is rejected and the table is as before. *)
Lemma signup_name_taken
    (req : Request) (w : World) (name password : string)
    (email : option string)
    (salt : Buffer) (rng : Rng) (hashedPassword : Buffer) (v : User) :
  validationResult isEmail req = [] ->
  body req !! "name" = Some (Str name) ->
  body req !! "password" = Some (Str password) ->
  body req !! "email" = Str <$> email ->
  outage (prisma w) = None ->
  In v (rows (prisma w)) -> Prisma.name v = name ->
  generateSalt (entropy w) = (salt, rng) ->
  calcHash password salt = Normal hashedPassword ->
  signup calcHash calcHashOther generateSalt isEmail req w
  = (Throw (PrismaClientKnownRequestError "P2002"),
     {| prisma := prisma w; entropy := rng |}).
Proof.
  intros Hok Hname Hpw Hemail Hup Hin Hv Hsalt Hhash.
  rewrite (signup_valid req w Hok), Hsalt, Hname, Hpw, Hemail. simpl.
  rewrite Hhash. unfold user_create, checkArgs. simpl.
  destruct email as [email|]; simpl; by rewrite (create_taken _ _ v).
Qed.



(** C4: when the validation reports an error the handler renders the
    signup form again with the list of messages and the [name], [email]
    and [age] of the body, and leaves the world, hence the table, as it
    was; a request with no [name] in any location is such a case, with
    the NAME message in the list. *)
Theorem signup_invalid_form_redisplayed (req : Request) (w : World) :
  validationResult isEmail req <> [] ->
  signup calcHash calcHashOther generateSalt isEmail req w
  = (Normal (Render "users/signup"
               {| title := "Users/Signup";
                  view_name := body req !! "name";
                  view_email := body req !! "email";
                  view_age := body req !! "age";
                  messages := validationResult isEmail req |}), w)
  /\ rows (prisma (snd (signup calcHash calcHashOther generateSalt isEmail
                               req w)))
     = rows (prisma w)
  /\ (Validator.absent req "name" ->
      In {| Validator.value := None;
            Validator.msg := "NAME は必ず入力してください。";
            Validator.path := "name";
            Validator.location := "body" |}
         (validationResult isEmail req)).
Proof.
  intros Hne. rewrite (signup_invalid _ _ Hne).
  split; [reflexivity|]. split; [reflexivity|].
  intros (Hb & Hc & Hh & Hp & Hq). unfold validationResult.
  rewrite (check_absent "name") by assumption. simpl. by left.
Qed.


(** C6 (amended): [email] and [age] are not optional.  A request that
    has no [age] in its body, cookies, headers, route parameters and
    query is rejected with the AGE message: the form is rendered again
    and nothing is written.  The same holds of a request without [email]
    when [isEmail] refuses the empty string.  When the validation does
    pass, an [email] or [age] that the body holds as a string has been
    accepted by [isEmail] or [isInt]. *)
Theorem signup_requires_email_and_age (req : Request) :
  (Validator.absent req "age" ->
   In {| Validator.value := None;
         Validator.msg := "AGE は整数で入力してください。";
         Validator.path := "age";
         Validator.location := "body" |}
      (validationResult isEmail req)
   /\ forall w : World,
        signup calcHash calcHashOther generateSalt isEmail req w
        = (Normal (Render "users/signup"
                     {| title := "Users/Signup";
                        view_name := body req !! "name";
                        view_email := body req !! "email";
                        view_age := body req !! "age";
                        messages := validationResult isEmail req |}), w))
  /\ (Validator.absent req "email" -> isEmail "" = false ->
      In {| Validator.value := None;
            Validator.msg := "EMAIL はメールアドレスを入力してください。";
            Validator.path := "email";
            Validator.location := "body" |}
         (validationResult isEmail req)
      /\ forall w : World,
           snd (signup calcHash calcHashOther generateSalt isEmail req w)
           = w)
  /\ (validationResult isEmail req = [] ->
      (forall email,
         body req !! "email" = Some (Str email) -> isEmail email = true)
      /\ (forall age,
            body req !! "age" = Some (Str age) ->
            Validator.isInt age = true)).
Proof.
  split; [|split].
  - intros (Hb & Hc & Hh & Hp & Hq).
    assert (In {| Validator.value := None;
                  Validator.msg := "AGE は整数で入力してください。";
                  Validator.path := "age";
                  Validator.location := "body" |}
               (validationResult isEmail req)) as Hin.
    { unfold validationResult. rewrite !in_app_iff. do 3 right.
      rewrite (check_absent "age") by assumption. simpl. by left. }
    split; [exact Hin|]. intros w. apply signup_invalid.
    intros Hnil. rewrite Hnil in Hin. destruct Hin.
  - intros (Hb & Hc & Hh & Hp & Hq) Hempty.
    assert (In {| Validator.value := None;
                  Validator.msg :=
                    "EMAIL はメールアドレスを入力してください。";
                  Validator.path := "email";
                  Validator.location := "body" |}
               (validationResult isEmail req)) as Hin.
    { unfold validationResult. rewrite !in_app_iff. do 2 right. left.
      rewrite (check_absent "email") by assumption.
      rewrite Hempty. by left. }
    split; [exact Hin|]. intros w. rewrite signup_invalid; [reflexivity|].
    intros Hnil. rewrite Hnil in Hin. destruct Hin.
  - intros Hok. by destruct (validated_body req Hok) as (_ & _ & He & Ha).
Qed.


End SignupProperties.

(** ** The routes on concrete requests *)

Lemma demo_uniqueNames : uniqueNames Demo.db.
Proof.
  unfold uniqueNames. simpl. apply NoDup_cons. split.
  - intros Hin. apply list_elem_of_In in Hin as [Heq|[]]. discriminate.
  - apply NoDup_cons. split; [|apply NoDup_nil_2].
    intros Hin. apply list_elem_of_In in Hin. destruct Hin.
Defined.

(** Login of [alice] with her password. *)
Lemma verify_accepts_stored_credentials_witness :
  verify Demo.calcHash Demo.db "alice" "secret"
  = cb None (Found Demo.alice) None
  /\ run (serializeUser Demo.alice
            (fun err principal => Called (err, principal)))
     = (None, {| principal_id := 1; principal_name := "alice" |}).
Proof.
  apply (verify_accepts_stored_credentials
           Demo.calcHash Demo.db Demo.alice "alice" "secret").
  - reflexivity.
  - exact demo_uniqueNames.
  - simpl. auto.
  - reflexivity.
  - reflexivity.
Defined.

(** [alice] unknown to one table, and known to the other where she logs
    in with a wrong password of the same length. *)
Lemma verify_rejections_identical_witness :
  verify Demo.calcHash
         {| rows := [Demo.bob]; nextId := 3; outage := None |}
         "alice" "wrong!"
  = verify Demo.calcHash Demo.db "alice" "wrong!"
  /\ cb_err (verify Demo.calcHash Demo.db "alice" "wrong!") = None
  /\ cb_user (verify Demo.calcHash Demo.db "alice" "wrong!") = JsFalse
  /\ cb_info (verify Demo.calcHash
                     {| rows := [Demo.bob]; nextId := 3; outage := None |}
                     "alice" "wrong!")
     = cb_info (verify Demo.calcHash Demo.db "alice" "wrong!").
Proof.
  apply (verify_rejections_identical
           Demo.calcHash
           {| rows := [Demo.bob]; nextId := 3; outage := None |}
           Demo.db Demo.alice "alice" "wrong!"
           ([x01; x5a] ++ Demo.bytes "wrong!")%list).
  - reflexivity.
  - intros v [<-|[]]. discriminate.
  - reflexivity.
  - exact demo_uniqueNames.
  - simpl. auto.
  - reflexivity.
  - reflexivity.
  - reflexivity.
  - discriminate.
Defined.

(** Login while the database cannot be reached. *)
Lemma verify_propagates_fault_witness :
  verify Demo.calcHash Demo.unreachable "alice" "secret"
  = cb (Some (PrismaClientInitializationError "P1001")) Undefined None
  /\ verify Demo.calcHash Demo.unreachable "alice" "secret"
     <> cb None JsFalse
          (Some {| message := "ユーザ名かパスワードが違います" |}).
Proof.
  apply (verify_propagates_fault
           Demo.calcHash Demo.unreachable "alice" "secret"
           (PrismaClientInitializationError "P1001")).
  left. reflexivity.
Defined.

(** Login of [bob], whose stored digest has three bytes. *)
Lemma verify_length_mismatch_is_error_witness :
  Crypto.timingSafeEqual (password Demo.bob)
                         ([x02; x5a] ++ Demo.bytes "secret")%list
  = Throw (RangeError "ERR_CRYPTO_TIMING_SAFE_EQUAL_LENGTH")
  /\ verify Demo.calcHash Demo.db "bob" "secret"
     = cb (Some (RangeError "ERR_CRYPTO_TIMING_SAFE_EQUAL_LENGTH"))
          Undefined None
  /\ verify Demo.calcHash Demo.db "bob" "secret"
     <> cb None JsFalse
          (Some {| message := "ユーザ名かパスワードが違います" |}).
Proof.
  apply (verify_length_mismatch_is_error
           Demo.calcHash Demo.db Demo.bob "secret"
           ([x02; x5a] ++ Demo.bytes "secret")%list).
  - reflexivity.
  - exact demo_uniqueNames.
  - simpl. auto.
  - reflexivity.
  - simpl. lia.
Defined.


(** C2, as stated, fails when the stored digest and the recomputed one
    differ in length: [bob] is unknown to one table and known to the
    other, where his stored digest has three bytes; the same attempt ends
    in the rejection on the first and in [cb(e)] on the second. *)
Lemma verify_rejections_differ_counterexample :
  (forall v, In v (rows Demo.db_without_bob) -> name v <> "bob")
  /\ In Demo.bob (rows Demo.db)
  /\ Demo.calcHash "wrongpw" (salt Demo.bob)
     <> Normal (Prisma.password Demo.bob)
  /\ verify Demo.calcHash Demo.db_without_bob "bob" "wrongpw"
     = cb None JsFalse (Some {| message := "ユーザ名かパスワードが違います" |})
  /\ verify Demo.calcHash Demo.db "bob" "wrongpw"
     = cb (Some (RangeError "ERR_CRYPTO_TIMING_SAFE_EQUAL_LENGTH"))
          Undefined None
  /\ verify Demo.calcHash Demo.db_without_bob "bob" "wrongpw"
     <> verify Demo.calcHash Demo.db "bob" "wrongpw".
Proof.
  split; [intros v [<-|[]]; discriminate|].
  split; [simpl; auto|].
  split; [discriminate|].
  split; [reflexivity|]. split; [reflexivity|]. discriminate.
Qed.

(** A form without a name is shown again. *)
Lemma signup_invalid_form_redisplayed_witness :
  signup Demo.calcHash Demo.calcHashOther Demo.generateSalt Demo.isEmail
         Demo.nameless_form Demo.world
  = (Normal (Render "users/signup"
               {| title := "Users/Signup";
                  view_name := body Demo.nameless_form !! "name";
                  view_email := body Demo.nameless_form !! "email";
                  view_age := body Demo.nameless_form !! "age";
                  messages :=
                    validationResult Demo.isEmail Demo.nameless_form |}),
     Demo.world)
  /\ rows (prisma (snd (signup Demo.calcHash Demo.calcHashOther
                               Demo.generateSalt Demo.isEmail
                               Demo.nameless_form Demo.world)))
     = rows (prisma Demo.world)
  /\ (Validator.absent Demo.nameless_form "name" ->
      In {| Validator.value := None;
            Validator.msg := "NAME は必ず入力してください。";
            Validator.path := "name";
            Validator.location := "body" |}
         (validationResult Demo.isEmail Demo.nameless_form)).
Proof.
  apply (signup_invalid_form_redisplayed
           Demo.calcHash Demo.calcHashOther Demo.generateSalt Demo.isEmail
           Demo.nameless_form Demo.world).
  vm_compute. discriminate.
Defined.



Lemma short_form_absent_age : Validator.absent Demo.short_form "age".
Proof. repeat split. Defined.

Lemma short_form_absent_email : Validator.absent Demo.short_form "email".
Proof. repeat split. Defined.

(** A form with a name and a password and nothing else is rejected. *)
Lemma signup_requires_email_and_age_witness :
  In {| Validator.value := None;
        Validator.msg := "AGE は整数で入力してください。";
        Validator.path := "age";
        Validator.location := "body" |}
     (validationResult Demo.isEmail Demo.short_form)
  /\ forall w : World,
       signup Demo.calcHash Demo.calcHashOther Demo.generateSalt
              Demo.isEmail Demo.short_form w
       = (Normal (Render "users/signup"
                    {| title := "Users/Signup";
                       view_name := body Demo.short_form !! "name";
                       view_email := body Demo.short_form !! "email";
                       view_age := body Demo.short_form !! "age";
                       messages :=
                         validationResult Demo.isEmail Demo.short_form |}),
          w).
Proof.
  apply (proj1 (signup_requires_email_and_age
                  Demo.calcHash Demo.calcHashOther Demo.generateSalt
                  Demo.isEmail Demo.short_form)).
  exact short_form_absent_age.
Defined.

(** C6, as stated, fails: a form with a name and a password and without
    [email] and [age], in the body or anywhere else in the request, does
    not pass the validation, whatever [isEmail] is, and the handler
    renders the form again without writing a row. *)
Lemma signup_optional_fields_counterexample :
  body Demo.short_form !! "name" = Some (Str "dave")
  /\ body Demo.short_form !! "password" = Some (Str "secret")
  /\ Validator.absent Demo.short_form "email"
  /\ Validator.absent Demo.short_form "age"
  /\ (forall isEmail : string -> bool,
        validationResult isEmail Demo.short_form <> [])
  /\ signup Demo.calcHash Demo.calcHashOther Demo.generateSalt
            Demo.isEmail Demo.short_form Demo.world
     = (Normal (Render "users/signup"
                  {| title := "Users/Signup";
                     view_name := Some (Str "dave");
                     view_email := None;
                     view_age := None;
                     messages :=
                       [ {| Validator.value := None;
                            Validator.msg :=
                              "EMAIL はメールアドレスを入力してください。";
                            Validator.path := "email";
                            Validator.location := "body" |};
                         {| Validator.value := None;
                            Validator.msg := "AGE は整数で入力してください。";
                            Validator.path := "age";
                            Validator.location := "body" |} ] |}),
        Demo.world).
Proof.
  split; [reflexivity|]. split; [reflexivity|].
  split; [exact short_form_absent_email|].
  split; [exact short_form_absent_age|].
  split; [|vm_compute; reflexivity].
  intros isEmail. unfold validationResult. intros H.
  apply List.app_eq_nil in H as [_ H].
  apply List.app_eq_nil in H as [_ H].
  apply List.app_eq_nil in H as [_ H].
  vm_compute in H. discriminate.
Qed.



(** [carol] signs up and then logs in: her password is accepted, another
    one of the same length is rejected. *)
Example signup_then_login :
  let w := snd (signup Demo.calcHash Demo.calcHashOther Demo.generateSalt
                       Demo.isEmail Demo.carol_form Demo.world) in
  cb_user (verify Demo.calcHash (prisma w) "carol" "hunter2")
  = Found {| id := 3; name := "carol";
             password := ([x07; x5a] ++ Demo.bytes "hunter2")%list;
             salt := [x07; x5a];
             email := Some "carol@example.com";
             age := Some (Num 31) |}
  /\ verify Demo.calcHash (prisma w) "carol" "hunter3"
     = cb None JsFalse (Some {| message := "ユーザ名かパスワードが違います" |}).
Proof. split; vm_compute; reflexivity. Qed.

(** A request with its age in the query only, and a form with two ages:
    both pass the validation, and the row is written without an age. *)
Example signup_age_outside_body :
  validationResult Demo.isEmail Demo.query_age_request = []
  /\ validationResult Demo.isEmail Demo.repeated_age_form = []
  /\ List.map age
       (rows (prisma (snd (signup Demo.calcHash Demo.calcHashOther
                                  Demo.generateSalt Demo.isEmail
                                  Demo.query_age_request Demo.world))))
     = [Some (Num 20); None; None]
  /\ List.map age
       (rows (prisma (snd (signup Demo.calcHash Demo.calcHashOther
                                  Demo.generateSalt Demo.isEmail
                                  Demo.repeated_age_form Demo.world))))
     = [Some (Num 20); None; None].
Proof. repeat split; vm_compute; reflexivity. Qed.

(** ** The verify callback: what each verdict implies *)
Section VerifyVerdicts.

Variable calcHash : string -> Buffer -> Completion Buffer.

Lemma timingSafeEqual_true_inv (a b : Buffer) :
  Crypto.timingSafeEqual a b = Normal true -> a = b.
Proof.
  unfold Crypto.timingSafeEqual.
  destruct (decide (length a = length b)); [|discriminate].
  intros [= H]. by apply bool_decide_eq_true_1 in H.
Qed.

Lemma timingSafeEqual_false_inv (a b : Buffer) :
  Crypto.timingSafeEqual a b = Normal false ->
  length a = length b /\ a <> b.
Proof.
  unfold Crypto.timingSafeEqual.
  destruct (decide (length a = length b)); [|discriminate].
  intros [= H]. split; [done|]. by apply bool_decide_eq_false_1 in H.
Qed.

Lemma findUnique_Some_inv (c : Client) (username : string) (u : User) :
  findUnique c username = Normal (Some u) ->
  outage c = None /\ In u (rows c) /\ name u = username.
Proof.
  unfold findUnique. destruct (outage c); [discriminate|].
  intros [= Hfind]. apply find_some in Hfind as [Hin Hname].
  split; [done|]. split; [done|]. by apply bool_decide_eq_true_1 in Hname.
Qed.

Lemma findUnique_None_inv (c : Client) (username : string) :
  findUnique c username = Normal None ->
  outage c = None /\ forall v, In v (rows c) -> name v <> username.
Proof.
  unfold findUnique. destruct (outage c); [discriminate|].
  intros [= Hfind]. split; [done|]. intros v Hin.
  apply (find_none _ _ Hfind) in Hin. by apply bool_decide_eq_false_1 in Hin.
Qed.

(** X1: the callback hands a user to [cb] only when the store is
    reachable, that user is a row of the table with the submitted name,
    and the digest of the submitted password under the row's salt is the
    stored digest; the call is then [cb(null, user)]. *)
Theorem verify_accepts_only_matching_digest
    (c : Client) (username password : string) (u : User) :
  cb_user (verify calcHash c username password) = Found u ->
  outage c = None
  /\ In u (rows c)
  /\ name u = username
  /\ calcHash password (salt u) = Normal (Prisma.password u)
  /\ verify calcHash c username password = cb None (Found u) None.
Proof.
  unfold verify.
  destruct (findUnique c username) as [[v|]|e0] eqn:Hfind; simpl;
    try discriminate.
  destruct (calcHash password (salt v)) as [h|e1] eqn:Hhash; simpl;
    try discriminate.
  destruct (Crypto.timingSafeEqual (Prisma.password v) h)
    as [[|]|e2] eqn:Hcmp; simpl; try discriminate.
  intros [= ->].
  apply findUnique_Some_inv in Hfind as (Hup & Hin & Hname).
  apply timingSafeEqual_true_inv in Hcmp as <-.
  by repeat split.
Qed.

(** X2: the callback answers [false] only with the one message, and only
    in two cases: no row has the submitted name, or the row with that
    name has a stored digest of the same length as the recomputed one and
    different from it. *)
Theorem verify_rejects_only_bad_credentials
    (c : Client) (username password : string) :
  cb_user (verify calcHash c username password) = JsFalse ->
  verify calcHash c username password
  = cb None JsFalse (Some {| message := "ユーザ名かパスワードが違います" |})
  /\ outage c = None
  /\ ((forall v, In v (rows c) -> name v <> username)
      \/ exists u h,
           In u (rows c) /\ name u = username
           /\ calcHash password (salt u) = Normal h
           /\ length (Prisma.password u) = length h
           /\ Prisma.password u <> h).
Proof.
  unfold verify.
  destruct (findUnique c username) as [[v|]|e0] eqn:Hfind; simpl;
    try discriminate.
  - destruct (calcHash password (salt v)) as [h|e1] eqn:Hhash; simpl;
      try discriminate.
    destruct (Crypto.timingSafeEqual (Prisma.password v) h)
      as [[|]|e2] eqn:Hcmp; simpl; try discriminate.
    intros _.
    apply findUnique_Some_inv in Hfind as (Hup & Hin & Hname).
    apply timingSafeEqual_false_inv in Hcmp as [Hlen Hne].
    split; [reflexivity|]. split; [exact Hup|].
    right. exists v, h. by repeat split.
  - intros _. apply findUnique_None_inv in Hfind as [Hup Habs].
    split; [reflexivity|]. split; [exact Hup|]. by left.
Qed.

(** X3: the callback reports an error only when a step of the [try]
    block threw it: the lookup, the hashing, or the comparison of two
    digests of different length. *)
Theorem verify_error_only_when_thrown
    (c : Client) (username password : string) (e : Exn) :
  cb_err (verify calcHash c username password) = Some e ->
  findUnique c username = Throw e
  \/ exists u, findUnique c username = Normal (Some u)
       /\ (calcHash password (salt u) = Throw e
           \/ exists h, calcHash password (salt u) = Normal h
                /\ length (Prisma.password u) <> length h
                /\ e = RangeError "ERR_CRYPTO_TIMING_SAFE_EQUAL_LENGTH").
Proof.
  intros Herr. apply verify_error_inv in Herr.
  destruct Herr as [Hfind|(u & Hfind & [Hhash|(h & Hhash & Hcmp)])].
  - by left.
  - right. exists u. split; [done|]. by left.
  - right. exists u. split; [done|]. right. exists h. split; [done|].
    unfold Crypto.timingSafeEqual in Hcmp.
    destruct (decide (length (Prisma.password u) = length h));
      [discriminate|].
    injection Hcmp as <-. by split.
Qed.

End VerifyVerdicts.

Lemma verify_accepts_only_matching_digest_witness :
  outage Demo.db = None
  /\ In Demo.alice (rows Demo.db)
  /\ name Demo.alice = "alice"
  /\ Demo.calcHash "secret" (salt Demo.alice)
     = Normal (Prisma.password Demo.alice)
  /\ verify Demo.calcHash Demo.db "alice" "secret"
     = cb None (Found Demo.alice) None.
Proof.
  apply (verify_accepts_only_matching_digest
           Demo.calcHash Demo.db "alice" "secret" Demo.alice).
  reflexivity.
Defined.

Lemma verify_rejects_only_bad_credentials_witness :
  verify Demo.calcHash Demo.db "alice" "wrong!"
  = cb None JsFalse (Some {| message := "ユーザ名かパスワードが違います" |})
  /\ outage Demo.db = None
  /\ ((forall v, In v (rows Demo.db) -> name v <> "alice")
      \/ exists u h,
           In u (rows Demo.db) /\ name u = "alice"
           /\ Demo.calcHash "wrong!" (salt u) = Normal h
           /\ length (Prisma.password u) = length h
           /\ Prisma.password u <> h).
Proof.
  apply (verify_rejects_only_bad_credentials
           Demo.calcHash Demo.db "alice" "wrong!").
  reflexivity.
Defined.

Lemma verify_error_only_when_thrown_witness :
  findUnique Demo.db "bob"
  = Throw (RangeError "ERR_CRYPTO_TIMING_SAFE_EQUAL_LENGTH")
  \/ exists u, findUnique Demo.db "bob" = Normal (Some u)
       /\ (Demo.calcHash "secret" (salt u)
           = Throw (RangeError "ERR_CRYPTO_TIMING_SAFE_EQUAL_LENGTH")
           \/ exists h, Demo.calcHash "secret" (salt u) = Normal h
                /\ length (Prisma.password u) <> length h
                /\ RangeError "ERR_CRYPTO_TIMING_SAFE_EQUAL_LENGTH"
                   = RangeError "ERR_CRYPTO_TIMING_SAFE_EQUAL_LENGTH").
Proof.
  apply (verify_error_only_when_thrown
           Demo.calcHash Demo.db "bob" "secret"
           (RangeError "ERR_CRYPTO_TIMING_SAFE_EQUAL_LENGTH")).
  reflexivity.
Defined.


(** ** POST /signup: effect on the table and on later logins *)
Section SignupEffects.

Context {Rng : Type}.
Variable calcHash : string -> Buffer -> Completion Buffer.
Variable calcHashOther : option Value -> Buffer -> Completion Buffer.
Variable generateSalt : Rng -> Buffer * Rng.
Variable isEmail : string -> bool.

Lemma find_app_other (l : list User) (u : User) (username : string) :
  name u <> username ->
  List.find (hasName username) (l ++ [u]) = List.find (hasName username) l.
Proof.
  intros Hne. induction l as [|v l IH]; simpl.
  - unfold hasName. by rewrite bool_decide_eq_false_2.
  - by destruct (hasName username v).
Qed.

Lemma find_app_new (l : list User) (u : User) :
  (forall v, In v l -> name v <> name u) ->
  List.find (hasName (name u)) (l ++ [u]) = Some u.
Proof.
  induction l as [|v l IH]; intros Hfresh; simpl.
  - unfold hasName. by rewrite bool_decide_eq_true_2.
  - unfold hasName at 1.
    rewrite bool_decide_eq_false_2 by (apply Hfresh; now left).
    apply IH. intros x Hx. apply Hfresh. now right.
Qed.

(** X4: after a signup that ended in the redirect, logging in with the
    submitted name and password is accepted, with a user that carries that
    name and is the last row of the table; and a password whose digest
    under the new salt has the same length as the stored one but differs
    from it is rejected. *)
Theorem signup_then_login_accepted
    (req : Request) (w : World) (name password : string) (url : string) :
  body req !! "name" = Some (Str name) ->
  body req !! "password" = Some (Str password) ->
  fst (signup calcHash calcHashOther generateSalt isEmail req w)
  = Normal (Redirect url) ->
  exists row,
    rows (prisma (snd (signup calcHash calcHashOther generateSalt isEmail
                              req w)))
    = (rows (prisma w) ++ [row])%list
    /\ Prisma.name row = name
    /\ verify calcHash
              (prisma (snd (signup calcHash calcHashOther generateSalt
                                   isEmail req w)))
              name password
       = cb None (Found row) None
    /\ forall other h,
         calcHash other (salt row) = Normal h ->
         length (Prisma.password row) = length h ->
         Prisma.password row <> h ->
         verify calcHash
                (prisma (snd (signup calcHash calcHashOther generateSalt
                                     isEmail req w)))
                name other
         = cb None JsFalse
              (Some {| message := "ユーザ名かパスワードが違います" |}).
Proof.
  intros Hname Hpw Hredirect.
  destruct (signup_outcome calcHash calcHashOther generateSalt isEmail
              req w)
    as [(name' & email & salt & h & Hname' & _ & _ & _ & Hhash
         & _ & Hfresh & _ & Hdb)|[Hno _]];
    [|by apply Hno in Hredirect].
  rewrite Hname in Hname'. injection Hname' as <-.
  rewrite Hpw in Hhash. simpl in Hhash.
  rewrite Hdb. eexists. split; [reflexivity|]. split; [reflexivity|].
  set (row := {| id := nextId (prisma w); Prisma.name := name;
                 Prisma.password := h; Prisma.salt := salt;
                 Prisma.email := email;
                 Prisma.age :=
                   jsonNumber (Number.toNumber (body req !! "age")) |}).
  assert (forall c, rows c = (rows (prisma w) ++ [row])%list ->
                    outage c = None ->
                    findUnique c name = Normal (Some row)) as Hfind.
  { intros c Hrows Hup. unfold findUnique. rewrite Hup, Hrows.
    f_equal. apply (find_app_new (rows (prisma w)) row). exact Hfresh. }
  split.
  - rewrite (verify_compared calcHash _ name password row h true);
      auto using timingSafeEqual_same.
  - intros other h' Hother Hlen Hne.
    rewrite (verify_compared calcHash _ name other row h' false);
      auto using timingSafeEqual_differ.
Qed.

(** X5: a signup never changes the verdict of a login under a name other
    than the submitted one, whatever that signup ends in. *)
Theorem signup_keeps_other_logins
    (req : Request) (w : World) (username password : string) :
  body req !! "name" <> Some (Str username) ->
  verify calcHash
         (prisma (snd (signup calcHash calcHashOther generateSalt isEmail
                              req w)))
         username password
  = verify calcHash (prisma w) username password.
Proof.
  intros Hother.
  destruct (signup_outcome calcHash calcHashOther generateSalt isEmail
              req w)
    as [(name & email & salt & h & Hname & _ & _ & _ & _
         & Hup & _ & _ & Hdb)|[_ Hdb]];
    [|by rewrite Hdb].
  rewrite Hdb. unfold verify, findUnique. simpl. rewrite Hup.
  rewrite find_app_other; [reflexivity|].
  simpl. intros ->. by apply Hother.
Qed.

(** X6: the handler answers with the redirect exactly when it has added
    a row: either it redirects to the login form and the table is the old
    one followed by one row with the name and the email of the body and
    the next identifier, or it does not redirect and the client is
    untouched.  No existing row is ever changed or removed. *)
Theorem signup_redirect_iff_row_added (req : Request) (w : World) :
  (fst (signup calcHash calcHashOther generateSalt isEmail req w)
   = Normal (Redirect "/users/login")
   /\ exists row,
        rows (prisma (snd (signup calcHash calcHashOther generateSalt
                                  isEmail req w)))
        = (rows (prisma w) ++ [row])%list
        /\ body req !! "name" = Some (Str (Prisma.name row))
        /\ id row = nextId (prisma w)
        /\ body req !! "email" = Str <$> Prisma.email row)
  \/ ((forall url,
         fst (signup calcHash calcHashOther generateSalt isEmail req w)
         <> Normal (Redirect url))
      /\ prisma (snd (signup calcHash calcHashOther generateSalt isEmail
                             req w))
         = prisma w).
Proof.
  destruct (signup_outcome calcHash calcHashOther generateSalt isEmail
              req w)
    as [(name & email & salt & h & Hname & Hemail & _ & _ & _ & _
         & _ & Hfst & Hdb)|Hno];
    [|by right].
  left. split; [exact Hfst|]. rewrite Hdb. eexists.
  split; [reflexivity|]. by repeat split.
Qed.




(** X16: once a signup has ended in the redirect, a later signup under
    the same name, whatever its other fields, does not: it never answers
    with a redirect, and it leaves the table with the row of the first
    one. *)
Theorem signup_name_registered_once
    (first second : Request) (w : World) (url : string) :
  fst (signup calcHash calcHashOther generateSalt isEmail first w)
  = Normal (Redirect url) ->
  body second !! "name" = body first !! "name" ->
  (forall url',
     fst (signup calcHash calcHashOther generateSalt isEmail second
            (snd (signup calcHash calcHashOther generateSalt isEmail
                         first w)))
     <> Normal (Redirect url'))
  /\ prisma (snd (signup calcHash calcHashOther generateSalt isEmail second
                    (snd (signup calcHash calcHashOther generateSalt
                                 isEmail first w))))
     = prisma (snd (signup calcHash calcHashOther generateSalt isEmail
                           first w)).
Proof.
  intros Hfirst Hsame.
  destruct (signup_outcome calcHash calcHashOther generateSalt isEmail
              first w)
    as [(name & email & salt & h & Hname & _ & _ & _ & _ & _
         & _ & _ & Hdb)|[Hno _]];
    [|by apply Hno in Hfirst].
  set (w1 := snd (signup calcHash calcHashOther generateSalt isEmail
                         first w)) in *.
  destruct (signup_outcome calcHash calcHashOther generateSalt isEmail
              second w1)
    as [(name2 & email2 & salt2 & h2 & Hname2 & _ & _ & _ & _ & _
         & Hfresh & _ & _)|Hno];
    [|exact Hno].
  exfalso. rewrite Hsame, Hname in Hname2. injection Hname2 as <-.
  rewrite Hdb in Hfresh. simpl in Hfresh.
  eapply Hfresh; [apply in_app_iff; right; left; reflexivity|].
  reflexivity.
Qed.

(** X17: the validation is satisfied by an [age] in any location, but the
    handler reads the body: when a signup ends in the redirect although
    the body holds no [age], or holds it two times or more, the row is
    written without an age. *)
Theorem signup_age_outside_body_is_dropped
    (req : Request) (w : World) (url : string) :
  fst (signup calcHash calcHashOther generateSalt isEmail req w)
  = Normal (Redirect url) ->
  body req !! "age" = None
  \/ (exists age1 age2 ages,
        body req !! "age" = Some (Arr (age1 :: age2 :: ages))) ->
  exists row,
    rows (prisma (snd (signup calcHash calcHashOther generateSalt isEmail
                              req w)))
    = (rows (prisma w) ++ [row])%list
    /\ Prisma.age row = None.
Proof.
  intros Hrun Hage.
  destruct (signup_outcome calcHash calcHashOther generateSalt isEmail
              req w)
    as [(name & email & salt & h & _ & _ & _ & _ & _ & _
         & _ & _ & Hdb)|[Hno _]];
    [|by apply Hno in Hrun].
  rewrite Hdb. eexists. split; [reflexivity|]. simpl.
  destruct Hage as [->|(a & b & l & ->)]; reflexivity.
Qed.

End SignupEffects.

(** ** POST /signup: what the handler reads and what it shows *)
Section SignupInputs.

Context {Rng : Type}.
Variable calcHash : string -> Buffer -> Completion Buffer.
Variable calcHashOther : option Value -> Buffer -> Completion Buffer.
Variable generateSalt : Rng -> Buffer * Rng.
Variable isEmail : string -> bool.

(** X7: two requests that agree, in each of the five locations, on
    [name], [password], [email] and [age] are handled alike: same
    response, same table, same draw of salt.  Whatever else a request
    carries (an [id], a [salt], ...) does not reach the handler's
    result. *)
Theorem signup_reads_four_fields (req1 req2 : Request) (w : World) :
  (forall field,
     In field ["name"; "password"; "email"; "age"] ->
     body req1 !! field = body req2 !! field
     /\ cookies req1 !! field = cookies req2 !! field
     /\ headers req1 !! field = headers req2 !! field
     /\ params req1 !! field = params req2 !! field
     /\ query req1 !! field = query req2 !! field) ->
  signup calcHash calcHashOther generateSalt isEmail req1 w
  = signup calcHash calcHashOther generateSalt isEmail req2 w.
Proof.
  intros Hagree.
  destruct (Hagree "name") as (Hn1 & Hn2 & Hn3 & Hn4 & Hn5);
    [simpl; tauto|].
  destruct (Hagree "password") as (Hp1 & Hp2 & Hp3 & Hp4 & Hp5);
    [simpl; tauto|].
  destruct (Hagree "email") as (He1 & He2 & He3 & He4 & He5);
    [simpl; tauto|].
  destruct (Hagree "age") as (Ha1 & Ha2 & Ha3 & Ha4 & Ha5);
    [simpl; tauto|].
  unfold signup, validationResult, Validator.check, Validator.selectFields.
  change (Validator.toLowerCase "name") with "name".
  change (Validator.toLowerCase "password") with "password".
  change (Validator.toLowerCase "email") with "email".
  change (Validator.toLowerCase "age") with "age".
  by rewrite Hn1, Hn2, Hn3, Hn4, Hn5, Hp1, Hp2, Hp3, Hp4, Hp5,
    He1, He2, He3, He4, He5, Ha1, Ha2, Ha3, Ha4, Ha5.
Qed.

Lemma values_mapValue (f : string -> string) (v : option Value) :
  Validator.values (Validator.mapValue f <$> v)
  = List.map (fmap f) (Validator.values v).
Proof.
  destruct v as [[s|elements]|]; simpl; try reflexivity.
  rewrite !List.map_map. reflexivity.
Qed.

(** The instance of a field after its strings went through [f]. *)
Definition mapInstance (f : string -> string) (i : Validator.FieldInstance)
  : Validator.FieldInstance :=
  {| Validator.instance_location := Validator.instance_location i;
     Validator.instance_path := Validator.instance_path i;
     Validator.instance_value :=
       Validator.mapValue f <$> Validator.instance_value i |}.

Lemma getData_mapInstance (f : string -> string)
    (instances : list Validator.FieldInstance) :
  Validator.getData (List.map (mapInstance f) instances)
  = List.map (mapInstance f) (Validator.getData instances).
Proof.
  unfold Validator.getData.
  assert (List.filter Validator.hasValue
            (List.map (mapInstance f) instances)
          = List.map (mapInstance f)
              (List.filter Validator.hasValue instances)) as ->.
  { induction instances as [|i l IH]; [reflexivity|]. simpl.
    assert (Validator.hasValue (mapInstance f i) = Validator.hasValue i)
      as -> by (unfold Validator.hasValue; simpl;
                by destruct (Validator.instance_value i)).
    destruct (Validator.hasValue i); simpl; by rewrite IH. }
  destruct (List.filter Validator.hasValue instances) as [|j l];
    [|reflexivity].
  simpl. by destruct instances.
Qed.

(** [notEmpty] reports the same on a field whose strings went through a
    function that keeps the empty string, and only it, empty. *)
Lemma runValidator_notEmpty_mapped (f : string -> string)
    (message : string) (i : Validator.FieldInstance) :
  (forall s, f s = "" <-> s = "") ->
  Validator.runValidator message Validator.notEmpty (mapInstance f i)
  = Validator.runValidator message Validator.notEmpty i.
Proof.
  intros Hf. unfold Validator.runValidator, mapInstance. simpl.
  rewrite values_mapValue, flat_map_concat_map, List.map_map,
    <- flat_map_concat_map.
  apply flat_map_ext. intros [s|]; simpl; [|reflexivity].
  destruct s as [|c s]; simpl.
  - by rewrite (proj2 (Hf "") eq_refl).
  - destruct (f (String c s)) as [|c' s'] eqn:Hfs; [|reflexivity].
    apply (proj1 (Hf _)) in Hfs. discriminate.
Qed.

Lemma validationResult_mapPassword (f : string -> string) (req : Request) :
  (forall s, f s = "" <-> s = "") ->
  validationResult isEmail (Validator.mapField f "password" req)
  = validationResult isEmail req.
Proof.
  intros Hf.
  assert (forall field message validator,
            field <> "password" ->
            Validator.toLowerCase field <> "password" ->
            Validator.check field message validator
              (Validator.mapField f "password" req)
            = Validator.check field message validator req) as Hother.
  { intros field message validator Hk Hl.
    unfold Validator.check, Validator.selectFields, Validator.mapField.
    cbn [body cookies headers params query].
    change (Validator.toLowerCase "password") with "password".
    by rewrite !lookup_alter_ne by congruence. }
  assert (Validator.check "password" "PASSWORD は必ず入力してください。"
            Validator.notEmpty (Validator.mapField f "password" req)
          = Validator.check "password" "PASSWORD は必ず入力してください。"
              Validator.notEmpty req) as Hpw.
  { unfold Validator.check.
    assert (Validator.selectFields (Validator.mapField f "password" req)
              "password"
            = List.map (mapInstance f)
                (Validator.selectFields req "password")) as ->.
    { unfold Validator.selectFields, Validator.mapField, mapInstance.
      cbn [body cookies headers params query List.map
           Validator.instance_location Validator.instance_path
           Validator.instance_value].
      change (Validator.toLowerCase "password") with "password".
      by rewrite !lookup_alter_eq. }
    rewrite getData_mapInstance, flat_map_concat_map, List.map_map,
      <- flat_map_concat_map.
    apply flat_map_ext. intros i.
    by apply runValidator_notEmpty_mapped. }
  unfold validationResult.
  rewrite Hpw, (Hother "name"), (Hother "email"), (Hother "age")
    by discriminate.
  reflexivity.
Qed.

(** X9: the form shown again does not depend on the passwords that were
    typed.  Replace every string of the [password] field, in every
    location of the request, by any other string that is empty exactly
    when the original is: when the handler renders the form for the
    original request, it renders the very same view, title, fields and
    messages, for the other one, and leaves the world alike. *)
Theorem signup_view_never_echoes_password
    (f : string -> string) (req : Request) (w w' : World)
    (view : string) (data : SignupView) :
  (forall s, f s = "" <-> s = "") ->
  signup calcHash calcHashOther generateSalt isEmail req w
  = (Normal (Render view data), w') ->
  signup calcHash calcHashOther generateSalt isEmail
         (Validator.mapField f "password" req) w
  = (Normal (Render view data), w').
Proof.
  intros Hf Hrun.
  pose proof (validationResult_mapPassword f req Hf) as Hval.
  destruct (validationResult isEmail req) as [|e errs] eqn:Hres.
  - rewrite (signup_valid calcHash calcHashOther generateSalt isEmail
               req w Hres) in Hrun.
    destruct (generateSalt (entropy w)) as [salt rng].
    destruct (scrypt_calcHash _ _ _ _) as [h|?]; [|discriminate].
    destruct (user_create _ _) as [[u|?] c]; discriminate.
  - rewrite signup_invalid in Hrun by congruence.
    rewrite signup_invalid by congruence.
    rewrite Hval, <- Hrun, Hres.
    unfold Validator.mapField. simpl.
    by rewrite !lookup_alter_ne by discriminate.
Qed.

(** X10: a salt is drawn exactly when the request passes the validation,
    and then once: the source of randomness is left untouched by a
    rejected request, and advanced by one draw by a valid one, also when
    the hashing or [create] throws afterwards. *)
Theorem signup_draws_salt_iff_valid (req : Request) (w : World) :
  entropy (snd (signup calcHash calcHashOther generateSalt isEmail req w))
  = if result_isEmpty (validationResult isEmail req)
    then snd (generateSalt (entropy w))
    else entropy w.
Proof.
  destruct (validationResult isEmail req) as [|e errs] eqn:Hres; simpl.
  - rewrite (signup_valid calcHash calcHashOther generateSalt isEmail
               req w Hres).
    destruct (generateSalt (entropy w)) as [salt rng]. simpl.
    destruct (scrypt_calcHash _ _ _ _) as [h|?]; [|reflexivity].
    by destruct (user_create _ _) as [[u|?] c].
  - by rewrite signup_invalid by congruence.
Qed.

End SignupInputs.

(** ** The ES-module signup route *)
Section EsmSignup.

Context {Rng Db Row : Type}.
Variable calcHash : option Value -> Buffer -> Completion Buffer.
Variable generateSalt : Rng -> Buffer * Rng.
Variable prisma_user_create
  : Db -> UsersEsm.UserCreateInput -> Completion Row * Db.







End EsmSignup.

(** ** More runs on concrete requests *)

(** [carol] signs up, then logs in. *)
Lemma signup_then_login_accepted_witness :
  exists row,
    rows (prisma (snd (signup Demo.calcHash Demo.calcHashOther
                              Demo.generateSalt Demo.isEmail
                              Demo.carol_form Demo.world)))
    = (rows (prisma Demo.world) ++ [row])%list
    /\ Prisma.name row = "carol"
    /\ verify Demo.calcHash
              (prisma (snd (signup Demo.calcHash Demo.calcHashOther
                                   Demo.generateSalt Demo.isEmail
                                   Demo.carol_form Demo.world)))
              "carol" "hunter2"
       = cb None (Found row) None
    /\ forall other h,
         Demo.calcHash other (salt row) = Normal h ->
         length (Prisma.password row) = length h ->
         Prisma.password row <> h ->
         verify Demo.calcHash
                (prisma (snd (signup Demo.calcHash Demo.calcHashOther
                                     Demo.generateSalt Demo.isEmail
                                     Demo.carol_form Demo.world)))
                "carol" other
         = cb None JsFalse
              (Some {| message := "ユーザ名かパスワードが違います" |}).
Proof.
  apply (signup_then_login_accepted
           Demo.calcHash Demo.calcHashOther Demo.generateSalt Demo.isEmail
           Demo.carol_form Demo.world "carol" "hunter2" "/users/login").
  - reflexivity.
  - reflexivity.
  - vm_compute. reflexivity.
Defined.

(** [carol] signs up; the login of [alice] is what it was. *)
Lemma signup_keeps_other_logins_witness :
  verify Demo.calcHash
         (prisma (snd (signup Demo.calcHash Demo.calcHashOther
                              Demo.generateSalt Demo.isEmail
                              Demo.carol_form Demo.world)))
         "alice" "secret"
  = verify Demo.calcHash (prisma Demo.world) "alice" "secret".
Proof.
  apply (signup_keeps_other_logins
           Demo.calcHash Demo.calcHashOther Demo.generateSalt Demo.isEmail
           Demo.carol_form Demo.world "alice" "secret").
  vm_compute. discriminate.
Defined.

(** A form with an [id] and a [salt] of its own is handled as the form
    without them. *)
Lemma signup_reads_four_fields_witness :
  signup Demo.calcHash Demo.calcHashOther Demo.generateSalt Demo.isEmail
         Demo.stuffed_form Demo.world
  = signup Demo.calcHash Demo.calcHashOther Demo.generateSalt Demo.isEmail
           Demo.carol_form Demo.world.
Proof.
  apply (signup_reads_four_fields
           Demo.calcHash Demo.calcHashOther Demo.generateSalt Demo.isEmail
           Demo.stuffed_form Demo.carol_form Demo.world).
  intros field [<-|[<-|[<-|[<-|[]]]]]; repeat split.
Defined.

(** The form without a name is shown again, alike whether the password
    is [secret] or the stars that stand for it. *)
Lemma signup_view_never_echoes_password_witness :
  signup Demo.calcHash Demo.calcHashOther Demo.generateSalt Demo.isEmail
         (Validator.mapField (fun s => if Validator.isEmpty s then ""
                                       else "******")
                             "password" Demo.nameless_form)
         Demo.world
  = (Normal (Render "users/signup"
               {| title := "Users/Signup";
                  view_name := None;
                  view_email := Some (Str "eve@example.com");
                  view_age := Some (Str "40");
                  messages :=
                    [ {| Validator.value := None;
                         Validator.msg := "NAME は必ず入力してください。";
                         Validator.path := "name";
                         Validator.location := "body" |} ] |}),
     Demo.world).
Proof.
  apply (signup_view_never_echoes_password
           Demo.calcHash Demo.calcHashOther Demo.generateSalt Demo.isEmail
           (fun s => if Validator.isEmpty s then "" else "******")
           Demo.nameless_form Demo.world Demo.world).
  - intros [|c s]; simpl; split; intros H; try reflexivity;
      discriminate H.
  - vm_compute. reflexivity.
Defined.


(** [carol] signs up twice, the second time with another password. *)
Lemma signup_name_registered_once_witness :
  (forall url',
     fst (signup Demo.calcHash Demo.calcHashOther Demo.generateSalt
            Demo.isEmail
            (Demo.form (<["password" := Str "another"]> Demo.carol_fields))
            (snd (signup Demo.calcHash Demo.calcHashOther
                         Demo.generateSalt Demo.isEmail
                         Demo.carol_form Demo.world)))
     <> Normal (Redirect url'))
  /\ prisma (snd (signup Demo.calcHash Demo.calcHashOther Demo.generateSalt
                    Demo.isEmail
                    (Demo.form (<["password" := Str "another"]>
                                  Demo.carol_fields))
                    (snd (signup Demo.calcHash Demo.calcHashOther
                                 Demo.generateSalt Demo.isEmail
                                 Demo.carol_form Demo.world))))
     = prisma (snd (signup Demo.calcHash Demo.calcHashOther
                           Demo.generateSalt Demo.isEmail
                           Demo.carol_form Demo.world)).
Proof.
  apply (signup_name_registered_once
           Demo.calcHash Demo.calcHashOther Demo.generateSalt Demo.isEmail
           Demo.carol_form
           (Demo.form (<["password" := Str "another"]> Demo.carol_fields))
           Demo.world "/users/login").
  - vm_compute. reflexivity.
  - vm_compute. reflexivity.
Defined.

(** The form of [carol] posted with the age in the query string only. *)
Lemma signup_age_outside_body_is_dropped_witness :
  exists row,
    rows (prisma (snd (signup Demo.calcHash Demo.calcHashOther
                              Demo.generateSalt Demo.isEmail
                              Demo.query_age_request Demo.world)))
    = (rows (prisma Demo.world) ++ [row])%list
    /\ Prisma.age row = None.
Proof.
  apply (signup_age_outside_body_is_dropped
           Demo.calcHash Demo.calcHashOther Demo.generateSalt Demo.isEmail
           Demo.query_age_request Demo.world "/users/login").
  - vm_compute. reflexivity.
  - left. vm_compute. reflexivity.
Defined.



